(** * A shallow embedding of [src/directed.rs] (two_phase_channel).

    The Rust code boxes a [DirectedChannel] (two [Data] fields) and hands
    out raw pointers into the two fields.  We model the live boxes as a
    finite map from block identifiers to channels; a raw pointer records
    the field of the box it was derived from, and holds a machine address
    that depends on the layout of [Data]: a fresh allocation with the two
    fields at different offsets when [Data] has non-zero size, and the one
    dangling address shared by every box and field when [Data] is
    zero-sized.  [assert_eq!] on raw pointers compares machine addresses.
    Operations run in a small outcome monad that distinguishes a normal
    return, a panic ([assert_eq!] failing) and undefined behaviour
    (reading through a pointer into freed memory). *)

From stdpp Require Import base gmap list.

(** ** Outcomes *)

Inductive outcome (A : Type) : Type :=
| Returned (a : A)
| Panicked
| Undefined.
Arguments Returned {A} a.
Arguments Panicked {A}.
Arguments Undefined {A}.

Definition obind {A B} (m : outcome A) (f : A -> outcome B) : outcome B :=
  match m with
  | Returned a => f a
  | Panicked => Panicked
  | Undefined => Undefined
  end.

Notation "'let!' x := m 'in' k" := (obind m (fun x => k))
  (at level 200, x name, m at level 100, right associativity).

(** ** Provenance and machine addresses of the two [Data] fields *)

Inductive field := ReadOnlyF | WritableF.

(** What a raw pointer was derived from: a field of a boxed channel. *)
Record addr := mk_addr { blk : nat; fld : field }.

(** The layout of [Data].  For a [Data] of non-zero size, [Box::new]
    allocates fresh memory and the two fields lie at different offsets.
    For a zero-sized [Data] (then [DirectedChannel<Data>] is zero-sized
    too), [Box::new] allocates nothing and returns the dangling address
    [align_of], the same for every such box, and both fields lie at offset
    0 of it; such a type has exactly one value. *)
Inductive data_layout (Data : Type) : Type :=
| Sized
| ZeroSized (unit_value : Data) (only_value : forall x : Data, x = unit_value).
Arguments Sized {Data}.
Arguments ZeroSized {Data} unit_value only_value.

(** The machine address a raw pointer holds. *)
Inductive maddr := At (b : nat) (f : field) | Dangling.

Definition field_eqb (f g : field) : bool :=
  match f, g with
  | ReadOnlyF, ReadOnlyF | WritableF, WritableF => true
  | _, _ => false
  end.

(** [assert_eq!] on two raw pointers: equality of the addresses they hold. *)
Definition maddr_eqb (a b : maddr) : bool :=
  match a, b with
  | At b1 f1, At b2 f2 => Nat.eqb b1 b2 && field_eqb f1 f2
  | Dangling, Dangling => true
  | _, _ => false
  end.

(** ** Capability keys: proof tokens without payload *)

Inductive DataKey : Set := data_key.
Inductive ChannelKey : Set := channel_key.

Definition into_channel_key (k : DataKey) : ChannelKey := channel_key.

Section Directed.

Context {Data : Type}.
(** [<Data as Clone>::clone]. *)
Variable clone : Data -> Data.
(** [size_of::<Data>()] is zero or not. *)
Variable layout : data_layout Data.

(** [pub struct DirectedChannel<Data> { read_only: Data, writable: Data }] *)
Record DirectedChannel := mk_channel {
  read_only : Data;
  writable : Data
}.

(** [pub struct DirectedChannelPointer<Data> { channel: Box<DirectedChannel<Data>> }]:
    the box is the block it owns. *)
Record DirectedChannelPointer := mk_cp { channel : nat }.

(** [pub struct ReadOnlyDataPointer<Data> { data: *const Data }] *)
Record ReadOnlyDataPointer := mk_rop { ro_data : addr }.

(** [pub struct WritableDataPointer<Data> { data: *mut Data }] *)
Record WritableDataPointer := mk_wp { w_data : addr }.

(** The live boxes: each owned channel and its contents.  For a
    zero-sized [Data] a block records only the ownership of the box; no
    memory stands behind it. *)
Abbreviation heap := (gmap nat DirectedChannel).

(** [Box::new]: a new box. *)
Definition box_new (h : heap) (c : DirectedChannel) : nat * heap :=
  let b := fresh (dom h) in (b, <[b := c]> h).

(** The address held by a pointer to a field of a boxed channel. *)
Definition address (a : addr) : maddr :=
  match layout with
  | Sized => At (blk a) (fld a)
  | ZeroSized _ _ => Dangling
  end.

(** Reading a [Data] field through a raw pointer ([&*p]).  A zero-sized
    read touches no memory and yields the type's one value. *)
Definition load (h : heap) (a : addr) : outcome Data :=
  match layout with
  | ZeroSized u _ => Returned u
  | Sized =>
      match h !! blk a with
      | Some c => Returned (match fld a with
                            | ReadOnlyF => read_only c
                            | WritableF => writable c
                            end)
      | None => Undefined
      end
  end.

(** Writing a [Data] field through a raw pointer ([*p = v]).  A
    zero-sized write touches no memory. *)
Definition store (h : heap) (a : addr) (v : Data) : outcome heap :=
  match layout with
  | ZeroSized _ _ => Returned h
  | Sized =>
      match h !! blk a with
      | Some c =>
          Returned (<[blk a := match fld a with
                               | ReadOnlyF => mk_channel v (writable c)
                               | WritableF => mk_channel (read_only c) v
                               end]> h)
      | None => Undefined
      end
  end.

(** [DirectedChannel::create] *)
Definition create (h : heap) (ro w : Data)
  : heap * (DirectedChannelPointer * ReadOnlyDataPointer * WritableDataPointer) :=
  let '(b, h') := box_new h (mk_channel ro w) in
  let channel_pointer := mk_cp b in
  let read_only_data_pointer := mk_rop (mk_addr b ReadOnlyF) in
  let writable_data_pointer := mk_wp (mk_addr b WritableF) in
  (h', (channel_pointer, read_only_data_pointer, writable_data_pointer)).

(** [DirectedChannel::create_equal]: [Self::create(data.clone(), data)]. *)
Definition create_equal (h : heap) (d : Data) :=
  create h (clone d) d.

(** The loop of [DirectedChannel::destroy] over the read-only pointers. *)
Fixpoint check_read_only (channel_read_only_data_pointer : maddr)
    (read_only_data_pointers : list ReadOnlyDataPointer) : outcome unit :=
  match read_only_data_pointers with
  | [] => Returned tt
  | p :: ps =>
      if maddr_eqb channel_read_only_data_pointer (address (ro_data p))
      then check_read_only channel_read_only_data_pointer ps
      else Panicked
  end.

(** [DirectedChannel::destroy]: moves the box out of the channel pointer,
    checks the writable pointer, then every read-only pointer, then moves
    both fields out; the box is dropped. *)
Definition destroy (h : heap) (channel_pointer : DirectedChannelPointer)
    (read_only_data_pointers : list ReadOnlyDataPointer)
    (writable_data_pointer : WritableDataPointer) : outcome (heap * (Data * Data)) :=
  let b := channel channel_pointer in
  match h !! b with
  | None => Undefined
  | Some c =>
      let channel_writable_data_pointer := address (mk_addr b WritableF) in
      if maddr_eqb channel_writable_data_pointer (address (w_data writable_data_pointer)) then
        let channel_read_only_data_pointer := address (mk_addr b ReadOnlyF) in
        let! _ := check_read_only channel_read_only_data_pointer read_only_data_pointers in
        Returned (delete b h, (read_only c, writable c))
      else Panicked
  end.

(** [DirectedChannel::destroy_single] *)
Definition destroy_single (h : heap) (channel_pointer : DirectedChannelPointer)
    (read_only_data_pointer : ReadOnlyDataPointer)
    (writable_data_pointer : WritableDataPointer) : outcome (heap * (Data * Data)) :=
  destroy h channel_pointer [read_only_data_pointer] writable_data_pointer.

(** [DirectedChannel::flush(&mut self, _)]: [self.read_only = self.writable.clone()]. *)
Definition DirectedChannel_flush (self : DirectedChannel) (k : ChannelKey)
  : DirectedChannel :=
  mk_channel (clone (writable self)) (writable self).

(** [DirectedChannelPointer::flush(&mut self, _)]: the same assignment,
    written out on the boxed channel. *)
Definition DirectedChannelPointer_flush (h : heap) (self : DirectedChannelPointer)
    (k : ChannelKey) : outcome heap :=
  match h !! channel self with
  | Some c => Returned (<[channel self := mk_channel (clone (writable c)) (writable c)]> h)
  | None => Undefined
  end.

(** [ReadOnlyDataPointer::get] *)
Definition ReadOnlyDataPointer_get (h : heap) (self : ReadOnlyDataPointer)
    (k : DataKey) : outcome Data :=
  load h (ro_data self).

(** [WritableDataPointer::get] *)
Definition WritableDataPointer_get (h : heap) (self : WritableDataPointer)
    (k : DataKey) : outcome Data :=
  load h (w_data self).

(** [*WritableDataPointer::get_mut(&mut self, _) = v]: the [&mut Data] it
    returns designates the writable field. *)
Definition WritableDataPointer_get_mut_assign (h : heap) (self : WritableDataPointer)
    (k : DataKey) (v : Data) : outcome heap :=
  store h (w_data self) v.

End Directed.

(** [pub trait IDirectedChannel { fn flush(&mut self, channel_key: &ChannelKey); }]:
    [flush] acts on the heap through [self]. *)
Class IDirectedChannel (Data Self : Type) := {
  dyn_flush : gmap nat (@DirectedChannel Data) -> Self -> ChannelKey ->
              outcome (gmap nat (@DirectedChannel Data))
}.

(** [impl<Data: Clone> IDirectedChannel for DirectedChannelPointer<Data>] *)
#[export] Instance DirectedChannelPointer_IDirectedChannel {Data : Type}
  (clone : Data -> Data) : IDirectedChannel Data DirectedChannelPointer := {
  dyn_flush h self k := DirectedChannelPointer_flush clone h self k
}.

Section Scenarios.

Context {Data : Type}.
Variable clone : Data -> Data.
Variable layout : data_layout Data.

(** One action of the writer thread or of the flushing thread on a channel. *)
Inductive op :=
| OpWrite (v : Data)
| OpFlush.

(** Running a sequence of writes (through [WritableDataPointer::get_mut])
    and flushes (through [DirectedChannelPointer::flush]). *)
Fixpoint run_ops (h : gmap nat (@DirectedChannel Data)) (cp : DirectedChannelPointer)
    (wp : WritableDataPointer) (ops : list op) : outcome (gmap nat DirectedChannel) :=
  match ops with
  | [] => Returned h
  | OpWrite v :: ops' =>
      let! h1 := WritableDataPointer_get_mut_assign layout h wp data_key v in
      run_ops h1 cp wp ops'
  | OpFlush :: ops' =>
      let! h1 := DirectedChannelPointer_flush clone h cp (into_channel_key data_key) in
      run_ops h1 cp wp ops'
  end.

End Scenarios.

(** The loop body of the unit test [tests::test], on integer data whose
    [Clone] is a copy: [*writable_data_pointer.get_mut(&data_key) = x;
    channel_pointer.flush(&data_key.into_channel_key())]. *)
Definition protocol_step (h : gmap nat (@DirectedChannel nat)) (cp : DirectedChannelPointer)
    (wp : WritableDataPointer) (x : nat) : outcome (gmap nat (@DirectedChannel nat)) :=
  let! h1 := WritableDataPointer_get_mut_assign Sized h wp data_key x in
  DirectedChannelPointer_flush (fun n : nat => n) h1 cp (into_channel_key data_key).

Fixpoint protocol_from (h : gmap nat (@DirectedChannel nat)) (cp : DirectedChannelPointer)
    (wp : WritableDataPointer) (xs : list nat) : outcome (gmap nat (@DirectedChannel nat)) :=
  match xs with
  | [] => Returned h
  | x :: xs' =>
      let! h1 := protocol_step h cp wp x in
      protocol_from h1 cp wp xs'
  end.

(** [for x in 1..=n { write x; flush }] *)
Definition protocol (h : gmap nat (@DirectedChannel nat)) (cp : DirectedChannelPointer)
    (wp : WritableDataPointer) (n : nat) : outcome (gmap nat (@DirectedChannel nat)) :=
  protocol_from h cp wp (seq 1 n).

(** ** The rest of [directed.rs] and its unit tests *)

(** [impl Clone for ReadOnlyDataPointer]: [*self] (the pointer is [Copy]). *)
Definition ReadOnlyDataPointer_clone {Data : Type} (self : ReadOnlyDataPointer)
  : ReadOnlyDataPointer := self.

(** [DirectedChannelPointer::destroy]: shorthand for [DirectedChannel::destroy]. *)
Definition DirectedChannelPointer_destroy {Data : Type} (layout : data_layout Data)
    (h : gmap nat (@DirectedChannel Data)) (self : DirectedChannelPointer)
    (read_only_data_pointers : list ReadOnlyDataPointer)
    (writable_data_pointer : WritableDataPointer) : outcome (gmap nat DirectedChannel * (Data * Data)) :=
  destroy layout h self read_only_data_pointers writable_data_pointer.

(** [DirectedChannelPointer::destroy_single]: shorthand for
    [DirectedChannel::destroy_single]. *)
Definition DirectedChannelPointer_destroy_single {Data : Type} (layout : data_layout Data)
    (h : gmap nat (@DirectedChannel Data)) (self : DirectedChannelPointer)
    (read_only_data_pointer : ReadOnlyDataPointer)
    (writable_data_pointer : WritableDataPointer) : outcome (gmap nat DirectedChannel * (Data * Data)) :=
  destroy_single layout h self read_only_data_pointer writable_data_pointer.

(** [assert_eq!(a, b)] on integers. *)
Definition assert_eq_nat (a b : nat) : outcome unit :=
  if Nat.eqb a b then Returned tt else Panicked.

(** The loop body of [tests::test] for [i]:
    [assert_eq!( *read_only_data_pointer.get(&data_key), i);
     *writable_data_pointer.get_mut(&data_key) = i + 1;
     channel_pointer.flush(&data_key.into_channel_key());] *)
Definition test_body (h : gmap nat (@DirectedChannel nat)) (cp : DirectedChannelPointer)
    (ro : ReadOnlyDataPointer) (wp : WritableDataPointer) (i : nat)
  : outcome (gmap nat (@DirectedChannel nat)) :=
  let! r := ReadOnlyDataPointer_get Sized h ro data_key in
  let! _ := assert_eq_nat r i in
  let! h1 := WritableDataPointer_get_mut_assign Sized h wp data_key (i + 1) in
  DirectedChannelPointer_flush (fun n : nat => n) h1 cp (into_channel_key data_key).

Fixpoint test_loop (h : gmap nat (@DirectedChannel nat)) (cp : DirectedChannelPointer)
    (ro : ReadOnlyDataPointer) (wp : WritableDataPointer) (is : list nat)
  : outcome (gmap nat (@DirectedChannel nat)) :=
  match is with
  | [] => Returned h
  | i :: is' => let! h1 := test_body h cp ro wp i in test_loop h1 cp ro wp is'
  end.

(** [tests::test], with the loop bound [0..3] generalised to [0..n], run on
    a heap [h] that may already hold other channels. *)
Definition tests_test (h : gmap nat (@DirectedChannel nat)) (n : nat)
  : outcome (gmap nat (@DirectedChannel nat)) :=
  let '(h1, (cp, ro, wp)) := create h 0 0 in
  let! h2 := test_loop h1 cp ro wp (seq 0 n) in
  let! res := destroy_single Sized h2 cp ro wp in
  let '(h3, (read_only_data, writable_data)) := res in
  let! _ := assert_eq_nat read_only_data n in
  let! _ := assert_eq_nat writable_data n in
  Returned h3.

(** [tests::ensure_channel_is_object_safe], with the initial values [1, 2]
    generalised to [a, b] and the asserted values compared with [b]:
    the channel is flushed through [dyn IDirectedChannel], both pointers
    are read, and the channel is destroyed. *)
Definition ensure_channel_is_object_safe {Data : Type} (clone : Data -> Data)
    (layout : data_layout Data)
    (h : gmap nat (@DirectedChannel Data)) (a b : Data)
  : outcome (Data * Data * (gmap nat DirectedChannel * (Data * Data))) :=
  let '(h1, (channel, read_only_data_pointer, writable_data_pointer)) := create h a b in
  let! h2 := @dyn_flush Data DirectedChannelPointer
               (DirectedChannelPointer_IDirectedChannel clone) h1 channel channel_key in
  let! r := ReadOnlyDataPointer_get layout h2 read_only_data_pointer data_key in
  let! w := WritableDataPointer_get layout h2 writable_data_pointer data_key in
  let! res := destroy_single layout h2 channel read_only_data_pointer writable_data_pointer in
  Returned (r, w, res).

Definition witness_heap2 : gmap nat (@DirectedChannel nat) :=
  <[0 := mk_channel 1 2]> (<[1 := mk_channel 3 4]> ∅).

Example tests_test_3 : tests_test ∅ 3 = Returned ∅.
Proof. vm_compute. reflexivity. Qed.

Example protocol_3 :
  let '(h1, (cp, ro, wp)) := create ∅ 0 0 in
  (let! h2 := protocol h1 cp wp 3 in ReadOnlyDataPointer_get Sized h2 ro data_key)
  = Returned 3.
Proof. vm_compute. reflexivity. Qed.

Definition witness_heap : gmap nat (@DirectedChannel nat) :=
  <[0 := mk_channel 1 2]> ∅.


(** ** Auxiliary lemmas *)

Lemma maddr_eqb_refl (a : maddr) : maddr_eqb a a = true.
Proof. destruct a as [b f|]; simpl; [|done]. rewrite Nat.eqb_refl. by destruct f. Qed.

Lemma maddr_eqb_true (a b : maddr) : maddr_eqb a b = true -> a = b.
Proof.
  destruct a as [b1 f1|], b as [b2 f2|]; simpl; try done.
  intros [H1 H2]%andb_prop. apply Nat.eqb_eq in H1. subst.
  destruct f1, f2; done.
Qed.

Lemma fresh_block_none {Data : Type} (h : gmap nat (@DirectedChannel Data)) :
  h !! fresh (dom h) = None.
Proof. apply not_elem_of_dom_1, is_fresh. Qed.

Lemma check_read_only_forallb {Data : Type} (layout : data_layout Data)
    (a : maddr) (ps : list ReadOnlyDataPointer) :
  check_read_only layout a ps
  = if forallb (fun p => maddr_eqb a (address layout (ro_data p))) ps
    then Returned tt else Panicked.
Proof.
  induction ps as [|p ps IH]; simpl; [done|].
  by destruct (maddr_eqb a (address layout (ro_data p))).
Qed.

Lemma check_read_only_ok {Data : Type} (layout : data_layout Data)
    (a : addr) (ps : list ReadOnlyDataPointer) :
  Forall (fun p => ro_data p = a) ps -> check_read_only layout (address layout a) ps = Returned tt.
Proof.
  induction 1 as [|p ps Hp _ IH]; simpl; [done|].
  rewrite Hp, maddr_eqb_refl. exact IH.
Qed.

(** ** Claims about a channel of arbitrary data *)

Section Claims.

Context {Data : Type}.
Variable clone : Data -> Data.
Variable layout : data_layout Data.

(** C1: [create(a, b)] followed immediately by [destroy] with the three
    returned pointers, or by [destroy_single], returns [(a, b)] and ends
    the channel's box, leaving the heap as it was. *)
Theorem create_destroy_roundtrip (h : gmap nat (@DirectedChannel Data)) (a b : Data) :
  let '(h1, (cp, ro, wp)) := create h a b in
  destroy layout h1 cp [ro] wp = Returned (h, (a, b)) /\
  destroy_single layout h1 cp ro wp = Returned (h, (a, b)).
Proof.
  unfold create, box_new, destroy_single, destroy; simpl.
  rewrite lookup_insert_eq, !maddr_eqb_refl; simpl.
  rewrite delete_insert_id by apply fresh_block_none. done.
Qed.

(** C2: after [flush] (of the channel pointer, or of the channel itself)
    the read-only slot holds the writable slot's value, the writable slot
    is unchanged, and the two are stored apart: a later write to the
    writable slot leaves the copy in the read-only slot in place. *)
Theorem flush_postcondition (h : gmap nat (@DirectedChannel Data))
    (cp : DirectedChannelPointer) (c : DirectedChannel) (k : ChannelKey)
    (Hclone : forall x, clone x = x) (Hlive : h !! channel cp = Some c) :
  DirectedChannel_flush clone c k = mk_channel (writable c) (writable c) /\
  exists h1, DirectedChannelPointer_flush clone h cp k = Returned h1 /\
    load layout h1 (mk_addr (channel cp) ReadOnlyF) = Returned (writable c) /\
    load layout h1 (mk_addr (channel cp) WritableF) = Returned (writable c) /\
    (forall v, exists h2, store layout h1 (mk_addr (channel cp) WritableF) v = Returned h2 /\
       load layout h2 (mk_addr (channel cp) ReadOnlyF) = Returned (writable c)).
Proof.
  split; [unfold DirectedChannel_flush; by rewrite Hclone|].
  unfold DirectedChannelPointer_flush. rewrite Hlive, Hclone.
  eexists; split; [reflexivity|].
  unfold load, store. destruct layout as [|u Hu]; simpl.
  - rewrite lookup_insert_eq.
    split; [done|]. split; [done|].
    intros v. eexists; split; [reflexivity|]. simpl. by rewrite lookup_insert_eq.
  - rewrite <- (Hu (writable c)).
    split; [done|]. split; [done|]. intros v. eexists; split; reflexivity.
Qed.

(** C4: two flushes in a row leave the heap as the first flush left it
    (for the channel pointer's flush and for the channel's own flush). *)
Theorem flush_idempotent (h : gmap nat (@DirectedChannel Data))
    (cp : DirectedChannelPointer) (c : DirectedChannel) (k : ChannelKey) :
  (let! h1 := DirectedChannelPointer_flush clone h cp k in
   DirectedChannelPointer_flush clone h1 cp k)
  = DirectedChannelPointer_flush clone h cp k /\
  DirectedChannel_flush clone (DirectedChannel_flush clone c k) k
  = DirectedChannel_flush clone c k.
Proof.
  split; [|done].
  unfold DirectedChannelPointer_flush.
  destruct (h !! channel cp) as [c0|]; simpl; [|done].
  rewrite lookup_insert_eq; simpl. by rewrite insert_insert_eq.
Qed.

(** C6: the channel's own [flush] applied to the boxed channel, the
    channel pointer's [flush] and [flush] through [dyn IDirectedChannel]
    give the same heap. *)
Theorem flush_entry_points_agree (h : gmap nat (@DirectedChannel Data))
    (cp : DirectedChannelPointer) (k : ChannelKey) :
  @dyn_flush Data DirectedChannelPointer (DirectedChannelPointer_IDirectedChannel clone) h cp k
  = DirectedChannelPointer_flush clone h cp k /\
  DirectedChannelPointer_flush clone h cp k
  = match h !! channel cp with
    | Some c => Returned (<[channel cp := DirectedChannel_flush clone c k]> h)
    | None => Undefined
    end.
Proof. split; [reflexivity|]. unfold DirectedChannelPointer_flush. by destruct (h !! channel cp). Qed.

(** C7: [destroy_single] is [destroy] on the one-element collection. *)
Theorem destroy_single_is_destroy (h : gmap nat (@DirectedChannel Data))
    (cp : DirectedChannelPointer) (ro : ReadOnlyDataPointer) (wp : WritableDataPointer) :
  destroy_single layout h cp ro wp = destroy layout h cp [ro] wp.
Proof. reflexivity. Qed.

(** C8: right after [create_equal(v)] both slots read back as [v]. *)
Theorem create_equal_slots (h : gmap nat (@DirectedChannel Data)) (v : Data)
    (k : DataKey) (Hclone : forall x, clone x = x) :
  let '(h1, (cp, ro, wp)) := create_equal clone h v in
  ReadOnlyDataPointer_get layout h1 ro k = Returned v /\
  WritableDataPointer_get layout h1 wp k = Returned v.
Proof.
  unfold create_equal, create, box_new, ReadOnlyDataPointer_get, WritableDataPointer_get, load.
  destruct layout as [|u Hu]; simpl.
  - rewrite lookup_insert_eq. by rewrite Hclone.
  - by rewrite <- (Hu v).
Qed.

(** C10: with matching channel and writable pointers, [destroy] given no
    read-only pointer at all succeeds and returns both slots. *)
Theorem destroy_no_read_only_pointers (h : gmap nat (@DirectedChannel Data))
    (cp : DirectedChannelPointer) (c : DirectedChannel) (wp : WritableDataPointer)
    (Hlive : h !! channel cp = Some c) (Hw : w_data wp = mk_addr (channel cp) WritableF) :
  destroy layout h cp [] wp = Returned (delete (channel cp) h, (read_only c, writable c)).
Proof. unfold destroy. by rewrite Hlive, Hw, maddr_eqb_refl. Qed.

End Claims.


(** ** Non-aliasing of the two slots, and the sequential protocol *)

Lemma run_ops_live {Data : Type} (clone : Data -> Data) (layout : data_layout Data)
    (ops : list (@op Data)) : forall (h : gmap nat (@DirectedChannel Data)) (b : nat),
  is_Some (h !! b) ->
  exists h2, run_ops clone layout h (mk_cp b) (mk_wp (mk_addr b WritableF)) ops = Returned h2 /\
    is_Some (h2 !! b).
Proof.
  induction ops as [|o ops IH]; intros h b [c Hc]; simpl; [eauto|].
  destruct o as [v|].
  - unfold WritableDataPointer_get_mut_assign, store; simpl.
    destruct layout as [|u Hu]; simpl.
    + rewrite Hc; simpl. apply IH. by rewrite lookup_insert_eq.
    + apply IH. eauto.
  - unfold DirectedChannelPointer_flush; simpl. rewrite Hc; simpl.
    apply IH. by rewrite lookup_insert_eq.
Qed.

(** C9: for a [Data] of non-zero size the two pointers handed out by
    [create] hold different addresses (for a zero-sized [Data] both slots
    occupy no storage); and for every [Data], after creation and any
    sequence of writes and flushes, a write through
    [WritableDataPointer::get_mut] changes the writable slot and leaves the
    read-only slot as it was. *)
Theorem slots_disjoint {Data : Type} (clone : Data -> Data) (layout : data_layout Data)
    (h : gmap nat (@DirectedChannel Data)) (a b : Data) (ops : list (@op Data))
    (k : DataKey) :
  let '(h1, (cp, ro, wp)) := create h a b in
  (layout = Sized -> address layout (ro_data ro) <> address layout (w_data wp)) /\
  exists h2, run_ops clone layout h1 cp wp ops = Returned h2 /\
    forall v, exists h3, WritableDataPointer_get_mut_assign layout h2 wp k v = Returned h3 /\
      ReadOnlyDataPointer_get layout h3 ro k = ReadOnlyDataPointer_get layout h2 ro k /\
      WritableDataPointer_get layout h3 wp k = Returned v.
Proof.
  unfold create, box_new; simpl.
  split; [intros ->; done|].
  destruct (run_ops_live clone layout ops (<[fresh (dom h) := mk_channel a b]> h) (fresh (dom h)))
    as (h2 & Hrun & [c Hc]); [by rewrite lookup_insert_eq|].
  exists h2. split; [exact Hrun|].
  intros v.
  unfold WritableDataPointer_get_mut_assign, ReadOnlyDataPointer_get,
    WritableDataPointer_get, store, load.
  destruct layout as [|u Hu]; simpl.
  - rewrite Hc. eexists; split; [reflexivity|]. simpl. by rewrite lookup_insert_eq.
  - eexists; split; [reflexivity|]. split; [done|]. by rewrite <- (Hu v).
Qed.

Lemma protocol_from_app (h : gmap nat (@DirectedChannel nat)) cp wp xs ys :
  protocol_from h cp wp (xs ++ ys)
  = (let! h1 := protocol_from h cp wp xs in protocol_from h1 cp wp ys).
Proof.
  revert h. induction xs as [|x xs IH]; intros h; simpl; [done|].
  destruct (protocol_step h cp wp x); simpl; [apply IH|done|done].
Qed.

Lemma protocol_live (n : nat) (h : gmap nat (@DirectedChannel nat)) (b : nat) (c : DirectedChannel) :
  h !! b = Some c ->
  exists h2 c2, protocol h (mk_cp b) (mk_wp (mk_addr b WritableF)) n = Returned h2 /\
    h2 !! b = Some c2 /\ (1 <= n -> c2 = mk_channel n n).
Proof.
  intros Hc. induction n as [|n IH].
  - exists h, c. split; [done|]. split; [done|]. lia.
  - destruct IH as (h2 & c2 & Hrun & Hc2 & _).
    unfold protocol in *. rewrite seq_S, protocol_from_app, Hrun; simpl.
    unfold protocol_step, WritableDataPointer_get_mut_assign, store,
      DirectedChannelPointer_flush; simpl.
    rewrite Hc2; simpl. rewrite lookup_insert_eq; simpl.
    rewrite insert_insert_eq.
    eexists _, _. split; [reflexivity|]. split; [by rewrite lookup_insert_eq|].
    intros _. f_equal; lia.
Qed.

(** C3: for [x] from 1 to [n] (with [n >= 1]), writing [x] through
    [WritableDataPointer::get_mut] and then flushing leaves both slots
    equal to [n]. *)
Theorem protocol_result (h : gmap nat (@DirectedChannel nat)) (a b n : nat)
    (Hn : 1 <= n) :
  let '(h1, (cp, ro, wp)) := create h a b in
  exists h2, protocol h1 cp wp n = Returned h2 /\
    ReadOnlyDataPointer_get Sized h2 ro data_key = Returned n /\
    WritableDataPointer_get Sized h2 wp data_key = Returned n.
Proof.
  unfold create, box_new; simpl.
  destruct (protocol_live n (<[fresh (dom h) := mk_channel a b]> h) (fresh (dom h))
    (mk_channel a b)) as (h2 & c2 & Hrun & Hc2 & Heq); [by rewrite lookup_insert_eq|].
  exists h2. split; [exact Hrun|].
  unfold ReadOnlyDataPointer_get, WritableDataPointer_get, load; simpl.
  rewrite Hc2, (Heq Hn). done.
Qed.

(** ** Witnesses: the claims' hypotheses hold at concrete inputs *)

Lemma flush_postcondition_witness :
  (forall x : nat, x = x) /\ witness_heap !! channel (mk_cp 0) = Some (mk_channel 1 2) /\
  DirectedChannel_flush (fun n : nat => n) (mk_channel 1 2) channel_key = mk_channel 2 2.
Proof.
  split; [done|]. split; [reflexivity|].
  destruct (flush_postcondition (fun n : nat => n) Sized witness_heap (mk_cp 0) (mk_channel 1 2)
    channel_key (fun x => eq_refl) eq_refl) as [H _].
  exact H.
Defined.

Lemma protocol_result_witness :
  1 <= 3 /\
  exists h2, protocol (fst (create ∅ 0 0)) (mk_cp 0) (mk_wp (mk_addr 0 WritableF)) 3 = Returned h2 /\
    ReadOnlyDataPointer_get Sized h2 (mk_rop (mk_addr 0 ReadOnlyF)) data_key = Returned 3.
Proof.
  split; [lia|].
  pose proof (protocol_result ∅ 0 0 3 ltac:(lia)) as H.
  vm_compute in H. destruct H as (h2 & H1 & H2 & _).
  exists h2. split; [exact H1|exact H2].
Defined.

Lemma create_equal_slots_witness :
  (forall x : nat, x = x) /\
  ReadOnlyDataPointer_get Sized (fst (create_equal (fun n : nat => n) ∅ 5))
    (mk_rop (mk_addr 0 ReadOnlyF)) data_key = Returned 5.
Proof.
  split; [done|].
  pose proof (create_equal_slots (fun n : nat => n) Sized ∅ 5 data_key (fun x => eq_refl)) as H.
  vm_compute in H. destruct H as [H _]. exact H.
Defined.

Lemma destroy_no_read_only_pointers_witness :
  witness_heap !! channel (mk_cp 0) = Some (mk_channel 1 2) /\
  destroy Sized witness_heap (mk_cp 0) [] (mk_wp (mk_addr 0 WritableF))
  = Returned (delete 0 witness_heap, (1, 2)).
Proof.
  split; [reflexivity|].
  exact (destroy_no_read_only_pointers Sized witness_heap (mk_cp 0) (mk_channel 1 2)
    (mk_wp (mk_addr 0 WritableF)) eq_refl eq_refl).
Defined.

(** ** Further properties of [directed.rs] *)

(** Any number of copies of the read-only pointer (made with its [Clone])
    are accepted by [DirectedChannelPointer::destroy] right after
    [create(a, b)], which returns [(a, b)] and ends the channel's box; so
    does [DirectedChannelPointer::destroy_single]. *)
Theorem destroy_method_copies_roundtrip {Data : Type} (layout : data_layout Data)
    (h : gmap nat (@DirectedChannel Data)) (a b : Data) (n : nat) :
  let '(h1, (cp, ro, wp)) := create h a b in
  DirectedChannelPointer_destroy layout h1 cp
    (repeat (ReadOnlyDataPointer_clone (Data:=Data) ro) n) wp = Returned (h, (a, b)) /\
  DirectedChannelPointer_destroy_single layout h1 cp ro wp = Returned (h, (a, b)).
Proof.
  unfold create, box_new, DirectedChannelPointer_destroy, DirectedChannelPointer_destroy_single,
    destroy_single, destroy; simpl.
  rewrite lookup_insert_eq, !maddr_eqb_refl; simpl.
  rewrite check_read_only_ok.
  - rewrite delete_insert_id by apply fresh_block_none. done.
  - apply Forall_forall. intros p Hp. apply list_elem_of_In, repeat_spec in Hp. by subst.
Qed.

(** On a live channel [destroy] never reaches undefined behaviour: it
    returns both slots exactly when the address held by the writable
    pointer and by every read-only pointer equals the address of the
    channel's matching field, and panics otherwise. *)
Theorem destroy_outcome {Data : Type} (layout : data_layout Data)
    (h : gmap nat (@DirectedChannel Data))
    (cp : DirectedChannelPointer) (c : DirectedChannel)
    (ros : list ReadOnlyDataPointer) (wp : WritableDataPointer)
    (Hlive : h !! channel cp = Some c) :
  destroy layout h cp ros wp
  = if maddr_eqb (address layout (mk_addr (channel cp) WritableF)) (address layout (w_data wp)) &&
       forallb (fun p => maddr_eqb (address layout (mk_addr (channel cp) ReadOnlyF))
                                   (address layout (ro_data p))) ros
    then Returned (delete (channel cp) h, (read_only c, writable c))
    else Panicked.
Proof.
  unfold destroy. rewrite Hlive, check_read_only_forallb.
  destruct (maddr_eqb _ (address layout (w_data wp))); simpl; [|done].
  by destruct (forallb _ ros).
Qed.

(** For a zero-sized [Data], [destroy] on a live channel never panics,
    whatever pointers it is given: all of them hold the same dangling
    address. *)
Theorem destroy_zero_sized_never_panics {Data : Type} (u : Data) (Hu : forall x, x = u)
    (h : gmap nat (@DirectedChannel Data))
    (cp : DirectedChannelPointer) (c : DirectedChannel)
    (ros : list ReadOnlyDataPointer) (wp : WritableDataPointer)
    (Hlive : h !! channel cp = Some c) :
  destroy (ZeroSized u Hu) h cp ros wp = Returned (delete (channel cp) h, (read_only c, writable c)).
Proof.
  rewrite (destroy_outcome _ h cp c ros wp Hlive); simpl.
  assert (Hall : forallb (fun p : ReadOnlyDataPointer => true) ros = true)
    by (apply forallb_forall; done).
  by rewrite Hall.
Qed.

(** For a [Data] of non-zero size, a successful [destroy] frees exactly
    the destroyed channel's box: reads through its two field pointers are
    undefined afterwards, and every other address reads as before. *)
Theorem destroy_frame {Data : Type} (layout : data_layout Data) (Hsized : layout = Sized)
    (h h' : gmap nat (@DirectedChannel Data))
    (cp : DirectedChannelPointer) (ros : list ReadOnlyDataPointer)
    (wp : WritableDataPointer) (res : Data * Data)
    (Hok : destroy layout h cp ros wp = Returned (h', res)) :
  (forall f, load layout h' (mk_addr (channel cp) f) = Undefined) /\
  (forall a, blk a <> channel cp -> load layout h' a = load layout h a).
Proof.
  subst layout. unfold destroy in Hok.
  destruct (h !! channel cp) as [c|]; [|done].
  destruct (maddr_eqb _ _); [|done].
  destruct (check_read_only _ _ _) as [v| |]; simpl in Hok; try done.
  injection Hok as <- _.
  split.
  - intros f. unfold load; simpl. by rewrite lookup_delete_eq.
  - intros a Hne. unfold load. by rewrite lookup_delete_ne by congruence.
Qed.


Lemma second_block_differs {Data : Type} (h : gmap nat (@DirectedChannel Data)) (c : DirectedChannel) :
  fresh (dom (<[fresh (dom h) := c]> h)) <> fresh (dom h).
Proof.
  intros Heq. pose proof (fresh_block_none (<[fresh (dom h) := c]> h)) as H.
  rewrite Heq, lookup_insert_eq in H. done.
Qed.

(** For a [Data] of non-zero size, mixing the pointers of two channels
    created one after the other makes [destroy_single] panic, whichever
    of the three pointers is the foreign one. *)
Theorem destroy_mixed_channels_panics {Data : Type} (layout : data_layout Data)
    (Hsized : layout = Sized) (h : gmap nat (@DirectedChannel Data)) (a b c d : Data) :
  let '(h1, (cp1, ro1, wp1)) := create h a b in
  let '(h2, (cp2, ro2, wp2)) := create h1 c d in
  destroy_single layout h2 cp1 ro2 wp1 = Panicked /\
  destroy_single layout h2 cp1 ro1 wp2 = Panicked /\
  destroy_single layout h2 cp1 ro2 wp2 = Panicked /\
  destroy_single layout h2 cp2 ro1 wp2 = Panicked /\
  destroy_single layout h2 cp2 ro2 wp1 = Panicked /\
  destroy_single layout h2 cp2 ro1 wp1 = Panicked.
Proof.
  subst layout. unfold create, box_new; simpl.
  pose proof (second_block_differs h (mk_channel a b)) as Hne.
  set (b1 := fresh (dom h)) in *.
  set (h1 := <[b1 := mk_channel a b]> h) in *.
  set (b2 := fresh (dom h1)) in *.
  assert (L1 : <[b2 := mk_channel c d]> h1 !! b1 = Some (mk_channel a b)).
  { rewrite lookup_insert_ne by congruence. apply lookup_insert_eq. }
  assert (L2 : <[b2 := mk_channel c d]> h1 !! b2 = Some (mk_channel c d))
    by apply lookup_insert_eq.
  assert (E12 : Nat.eqb b1 b2 = false) by (apply Nat.eqb_neq; congruence).
  assert (E21 : Nat.eqb b2 b1 = false) by (apply Nat.eqb_neq; congruence).
  clearbody b1 b2 h1.
  unfold destroy_single, destroy; simpl. rewrite L1, L2; simpl.
  rewrite ?Nat.eqb_refl, ?E12, ?E21; simpl.
  repeat split.
Qed.

(** [DirectedChannelPointer::flush] touches only its own channel: every
    slot of every other channel reads as before. *)
Theorem flush_frame {Data : Type} (clone : Data -> Data) (layout : data_layout Data)
    (h h' : gmap nat (@DirectedChannel Data)) (cp : DirectedChannelPointer) (k : ChannelKey)
    (Hok : DirectedChannelPointer_flush clone h cp k = Returned h') :
  forall a, blk a <> channel cp -> load layout h' a = load layout h a.
Proof.
  unfold DirectedChannelPointer_flush in Hok.
  destruct (h !! channel cp); [|done]. injection Hok as <-.
  intros a Hne. unfold load. destruct layout; [|done].
  by rewrite lookup_insert_ne by congruence.
Qed.

(** Flushing two different channels gives the same heap in either order,
    so a collection of [dyn IDirectedChannel] may be flushed in any order. *)
Theorem flush_commute {Data : Type} (clone : Data -> Data)
    (h : gmap nat (@DirectedChannel Data)) (cp1 cp2 : DirectedChannelPointer) (k : ChannelKey)
    (Hne : channel cp1 <> channel cp2) :
  (let! h1 := DirectedChannelPointer_flush clone h cp1 k in
   DirectedChannelPointer_flush clone h1 cp2 k)
  = (let! h1 := DirectedChannelPointer_flush clone h cp2 k in
     DirectedChannelPointer_flush clone h1 cp1 k).
Proof.
  unfold DirectedChannelPointer_flush.
  destruct (h !! channel cp1) as [c1|] eqn:E1, (h !! channel cp2) as [c2|] eqn:E2; simpl;
    rewrite ?lookup_insert_ne by congruence; rewrite ?E1, ?E2; simpl; try done.
  by rewrite insert_insert_ne by congruence.
Qed.

Lemma test_loop_inv (cp_b : nat) (n : nat) : forall (k : nat) (h : gmap nat (@DirectedChannel nat)),
  h !! cp_b = Some (mk_channel k k) ->
  test_loop h (mk_cp cp_b) (mk_rop (mk_addr cp_b ReadOnlyF)) (mk_wp (mk_addr cp_b WritableF))
    (seq k n) = Returned (<[cp_b := mk_channel (k + n) (k + n)]> h).
Proof.
  induction n as [|n IH]; intros k h Hc; simpl.
  - rewrite Nat.add_0_r. by rewrite insert_id.
  - unfold test_body, ReadOnlyDataPointer_get, load, assert_eq_nat,
      WritableDataPointer_get_mut_assign, store, DirectedChannelPointer_flush; simpl.
    rewrite Hc; simpl. rewrite Nat.eqb_refl; simpl.
    rewrite lookup_insert_eq; simpl. rewrite insert_insert_eq.
    rewrite IH by (rewrite lookup_insert_eq; f_equal; f_equal; lia).
    rewrite insert_insert_eq. do 3 f_equal; lia.
Qed.

(** The unit test [tests::test], with its loop bound generalised to any
    [n]: no assertion fails, [destroy_single] returns [(n, n)], and the
    heap is left as it was. *)
Theorem tests_test_passes (h : gmap nat (@DirectedChannel nat)) (n : nat) :
  tests_test h n = Returned h.
Proof.
  unfold tests_test, create, box_new; simpl.
  rewrite (test_loop_inv _ n 0) by apply lookup_insert_eq; simpl.
  unfold destroy_single, destroy; simpl.
  rewrite lookup_insert_eq, !Nat.eqb_refl; simpl.
  unfold assert_eq_nat. rewrite Nat.eqb_refl; simpl.
  rewrite insert_insert_eq, delete_insert_id by apply fresh_block_none. done.
Qed.

(** The unit test [tests::ensure_channel_is_object_safe], for any initial
    values [a, b]: after the flush through [dyn IDirectedChannel] both
    pointers read [b], and [destroy_single] returns [(b, b)] and leaves the
    heap as it was. *)
Theorem ensure_channel_is_object_safe_passes {Data : Type} (clone : Data -> Data)
    (layout : data_layout Data) (Hclone : forall x, clone x = x)
    (h : gmap nat (@DirectedChannel Data)) (a b : Data) :
  ensure_channel_is_object_safe clone layout h a b = Returned (b, b, (h, (b, b))).
Proof.
  unfold ensure_channel_is_object_safe, create, box_new; simpl.
  unfold DirectedChannelPointer_flush; simpl. rewrite lookup_insert_eq; simpl.
  rewrite Hclone, insert_insert_eq.
  unfold ReadOnlyDataPointer_get, WritableDataPointer_get, load.
  unfold destroy_single, destroy; simpl.
  rewrite lookup_insert_eq, !maddr_eqb_refl; simpl.
  rewrite delete_insert_id by apply fresh_block_none.
  destruct layout as [|u Hu]; simpl; [done|].
  by rewrite <- (Hu b).
Qed.

(** ** Witnesses for the further properties *)

Lemma destroy_outcome_witness :
  witness_heap2 !! channel (mk_cp 1) = Some (mk_channel 3 4) /\
  destroy Sized witness_heap2 (mk_cp 1)
    [mk_rop (mk_addr 1 ReadOnlyF); mk_rop (mk_addr 0 ReadOnlyF)] (mk_wp (mk_addr 1 WritableF))
  = Panicked.
Proof.
  split; [reflexivity|].
  rewrite (destroy_outcome Sized witness_heap2 (mk_cp 1) (mk_channel 3 4) _ _ eq_refl).
  reflexivity.
Defined.

Lemma destroy_zero_sized_never_panics_witness :
  (<[0 := mk_channel tt tt]> ∅ : gmap nat (@DirectedChannel unit)) !! channel (mk_cp 0)
    = Some (mk_channel tt tt) /\
  destroy (ZeroSized tt (fun x => match x with tt => eq_refl end))
    (<[0 := mk_channel tt tt]> ∅) (mk_cp 0) [mk_rop (mk_addr 5 ReadOnlyF)]
    (mk_wp (mk_addr 7 WritableF))
  = Returned (delete 0 (<[0 := mk_channel tt tt]> ∅), (tt, tt)).
Proof.
  split; [reflexivity|].
  exact (destroy_zero_sized_never_panics tt (fun x => match x with tt => eq_refl end)
    (<[0 := mk_channel tt tt]> ∅) (mk_cp 0) (mk_channel tt tt)
    [mk_rop (mk_addr 5 ReadOnlyF)] (mk_wp (mk_addr 7 WritableF)) eq_refl).
Defined.

Lemma destroy_frame_witness :
  destroy Sized witness_heap2 (mk_cp 1) [mk_rop (mk_addr 1 ReadOnlyF)] (mk_wp (mk_addr 1 WritableF))
    = Returned (delete 1 witness_heap2, (3, 4)) /\
  load Sized (delete 1 witness_heap2) (mk_addr 0 ReadOnlyF) = Returned 1.
Proof.
  split; [reflexivity|].
  destruct (destroy_frame Sized eq_refl witness_heap2 (delete 1 witness_heap2) (mk_cp 1)
    [mk_rop (mk_addr 1 ReadOnlyF)] (mk_wp (mk_addr 1 WritableF)) (3, 4) eq_refl) as [_ H].
  rewrite (H (mk_addr 0 ReadOnlyF) ltac:(simpl; lia)). reflexivity.
Defined.

Lemma destroy_mixed_channels_panics_witness :
  (Sized : data_layout nat) = Sized /\
  destroy_single Sized (fst (create (fst (create ∅ 1 2)) 3 4)) (mk_cp 0)
    (mk_rop (mk_addr 1 ReadOnlyF)) (mk_wp (mk_addr 0 WritableF)) = Panicked.
Proof.
  split; [reflexivity|].
  pose proof (destroy_mixed_channels_panics (Data:=nat) Sized eq_refl ∅ 1 2 3 4) as H.
  vm_compute in H. destruct H as [H _]. exact H.
Defined.

Lemma flush_frame_witness :
  DirectedChannelPointer_flush (fun n : nat => n) witness_heap2 (mk_cp 1) channel_key
    = Returned (<[1 := mk_channel 4 4]> witness_heap2) /\
  load Sized (<[1 := mk_channel 4 4]> witness_heap2) (mk_addr 0 ReadOnlyF) = Returned 1.
Proof.
  split; [reflexivity|].
  rewrite (flush_frame (fun n : nat => n) Sized witness_heap2 (<[1 := mk_channel 4 4]> witness_heap2)
    (mk_cp 1) channel_key eq_refl (mk_addr 0 ReadOnlyF) ltac:(simpl; lia)).
  reflexivity.
Defined.

Lemma flush_commute_witness :
  channel (mk_cp 0) <> channel (mk_cp 1) /\
  (let! h1 := DirectedChannelPointer_flush (fun n : nat => n) witness_heap2 (mk_cp 0) channel_key in
   DirectedChannelPointer_flush (fun n : nat => n) h1 (mk_cp 1) channel_key)
  = (let! h1 := DirectedChannelPointer_flush (fun n : nat => n) witness_heap2 (mk_cp 1) channel_key in
     DirectedChannelPointer_flush (fun n : nat => n) h1 (mk_cp 0) channel_key).
Proof.
  split; [simpl; lia|].
  exact (flush_commute (fun n : nat => n) witness_heap2 (mk_cp 0) (mk_cp 1) channel_key
    ltac:(simpl; lia)).
Defined.

Lemma ensure_channel_is_object_safe_passes_witness :
  (forall x : nat, x = x) /\
  ensure_channel_is_object_safe (fun n : nat => n) Sized ∅ 1 2 = Returned (2, 2, (∅, (2, 2))).
Proof.
  split; [done|].
  exact (ensure_channel_is_object_safe_passes (fun n : nat => n) Sized (fun x => eq_refl) ∅ 1 2).
Defined.
